(** * PHP-X native timer: [current_time_ms]

    A shallow embedding of [src/native/timer.c] and the properties of its
    single function:

<<
    long current_time_ms() {
        struct timespec ts;
        clock_gettime(CLOCK_REALTIME, &ts);
        return (ts.tv_sec * 1000) + (ts.tv_nsec / 1000000);
    }
>>

    The arithmetic is that of the C type [long], written over [Z] with the
    two's complement wrap-around spelled out.  The call to the platform's
    [clock_gettime] is an effect: the function is a program over that
    primitive and over assignments to the state of the process (of which
    it has none), and a platform interprets both on a world. *)

From Stdlib Require Import ZArith QArith Qround Lia.

Local Open Scope Z_scope.

(** ** The C type [long] *)

Module CLong.

(** Modelled from the spec: the width of [long] (and of [time_t], which the
    platform headers declare, not the source).  The source only says
    [long]; section 6 of the specification fixes the result as a signed
    64-bit integer, which is the LP64 data model. *)
Definition LONG_BIT : Z := 64.

Definition LONG_MIN : Z := - 2 ^ (LONG_BIT - 1).
Definition LONG_MAX : Z := 2 ^ (LONG_BIT - 1) - 1.

(** [representable z]: the integer [z] is a value of type [long]. *)
Definition representable (z : Z) : bool :=
  (LONG_MIN <=? z) && (z <=? LONG_MAX).

(** Two's complement reduction of an ideal integer into [long].  ISO C
    leaves signed overflow undefined; the instructions emitted for the
    expression ([imul], [add]) wrap, and so does the model.  Where the
    ideal result is representable, [wrap] is the identity. *)
Definition wrap (z : Z) : Z :=
  (z - LONG_MIN) mod 2 ^ LONG_BIT + LONG_MIN.

(** [a * b], [a + b] and [a / b] on [long].  C division truncates toward
    zero: [Z.quot]. *)
Definition mul (a b : Z) : Z := wrap (a * b).
Definition add (a b : Z) : Z := wrap (a + b).
Definition div (a b : Z) : Z := wrap (a ÷ b).

End CLong.

(** ** [struct timespec] and clock identifiers *)

Record timespec : Type := mk_timespec {
  tv_sec  : Z;   (* time_t *)
  tv_nsec : Z    (* long *)
}.

Inductive clockid : Type :=
| CLOCK_REALTIME
| CLOCK_MONOTONIC.

(** ** Programs over the clock primitive

    [Clock_gettime clk tp k] is the call [clock_gettime(clk, &buf)] where
    [buf] holds [tp] on entry; the platform answers with the [int] it
    returns and with the contents it leaves in [buf], and the program goes
    on as [k].  [Assign addr v k] is an assignment of [v] to the object at
    [addr] outside the frame of the function (a global, a static, an
    object on the heap), what C code does when it changes the state of the
    process itself; [current_time_ms] has none.  The type is inductive: a
    program makes finitely many steps. *)

Inductive prog (A : Type) : Type :=
| Ret (a : A)
| Clock_gettime (clk : clockid) (tp : timespec) (k : Z -> timespec -> prog A)
| Assign (addr : Z) (v : Z) (k : prog A).

Arguments Ret {A} a.
Arguments Clock_gettime {A} clk tp k.
Arguments Assign {A} addr v k.

Fixpoint bind {A B : Type} (m : prog A) (f : A -> prog B) : prog B :=
  match m with
  | Ret a => f a
  | Clock_gettime clk tp k =>
      Clock_gettime clk tp (fun rc tp' => bind (k rc tp') f)
  | Assign addr v k => Assign addr v (bind k f)
  end.

Definition clock_gettime (clk : clockid) (tp : timespec) : prog (Z * timespec) :=
  Clock_gettime clk tp (fun rc tp' => Ret (rc, tp')).

Notation "x <- m ;; k" := (bind m (fun x => k))
  (at level 61, m at next level, right associativity).

(** ** The function *)

(** The [return] expression of line 7, on the contents of [ts]. *)
Definition to_ms (ts : timespec) : Z :=
  CLong.add (CLong.mul (tv_sec ts) 1000) (CLong.div (tv_nsec ts) 1000000).

(** [ts] is declared without an initialiser: the argument stands for what
    the stack slot holds when the function is entered.  The [int] returned
    by [clock_gettime] is dropped, as in the source. *)
Definition current_time_ms (ts : timespec) : prog Z :=
  r <- clock_gettime CLOCK_REALTIME ts ;;
  let ts := snd r in
  Ret (to_ms ts).

(** The computation of line 7 stays inside [long]: neither the product nor
    the sum leaves the range (the quotient never does). *)
Definition overflow_free (ts : timespec) : bool :=
  CLong.representable (tv_sec ts * 1000)
  && CLong.representable (tv_sec ts * 1000 + tv_nsec ts ÷ 1000000).

(** ** Platforms

    A platform interprets the primitive on its world (the process state and
    the clock behind it): it gives the returned [int], the contents left in
    the buffer and the world after the call.  It also says what an
    assignment does to the world. *)

Class Platform (world : Type) : Type := {
  sys_clock_gettime : clockid -> timespec -> world -> Z * timespec * world;
  sys_assign : Z -> Z -> world -> world
}.

Section Run.
Context {world : Type} `{Platform world}.

Fixpoint run {A : Type} (m : prog A) (w : world) : A * world :=
  match m with
  | Ret a => (a, w)
  | Clock_gettime clk tp k =>
      let '(rc, tp', w') := sys_clock_gettime clk tp w in
      run (k rc tp') w'
  | Assign addr v k => run k (sys_assign addr v w)
  end.

(** Number of calls of the primitive along a run. *)
Fixpoint calls {A : Type} (m : prog A) (w : world) : nat :=
  match m with
  | Ret _ => O
  | Clock_gettime clk tp k =>
      let '(rc, tp', w') := sys_clock_gettime clk tp w in
      S (calls (k rc tp') w')
  | Assign addr v k => calls k (sys_assign addr v w)
  end.

(** The realtime clock reads [r] in world [w]: the primitive succeeds
    (returns 0) and stores [r]. *)
Definition clock_reads (w : world) (tp r : timespec) : Prop :=
  exists w', sys_clock_gettime CLOCK_REALTIME tp w = (0, r, w').

End Run.

(** ** Fake clocks

    A world for a substituted clock: what the clock yields ([None]: the read
    fails) next to the rest of the process state, kept as one number. *)

Record fake_world : Type := mk_fake {
  fake_now : option timespec;
  fake_mem : Z
}.

(** Success stores the reading and returns 0; failure returns -1 and leaves
    the buffer alone.  An assignment, wherever it goes, overwrites
    [fake_mem]. *)
#[export] Instance fake_clock : Platform fake_world := {|
  sys_clock_gettime := fun _ tp w =>
    match fake_now w with
    | Some r => (0, r, w)
    | None => (-1, tp, w)
    end;
  sys_assign := fun _ v w => mk_fake (fake_now w) v
|}.

(** ** A POSIX process

    The state of a process as the C library presents it: what the realtime
    clock answers to a read (a reading, or the error number of a read that
    fails), [errno], and the objects in memory by address.  [clock_gettime]
    returns 0 and stores the reading, or returns -1, sets [errno] and
    leaves the buffer alone. *)

Definition EPERM : Z := 1.

Record posix_world : Type := mk_posix {
  posix_clock : timespec + Z;
  posix_errno : Z;
  posix_mem : Z -> Z
}.

#[export] Instance posix_process : Platform posix_world := {|
  sys_clock_gettime := fun _ tp w =>
    match posix_clock w with
    | inl r => (0, r, w)
    | inr e => (-1, tp, mk_posix (posix_clock w) e (posix_mem w))
    end;
  sys_assign := fun addr v w =>
    mk_posix (posix_clock w) (posix_errno w)
             (fun a => if a =? addr then v else posix_mem w a)
|}.

(** ** The specification's reading of the result

    Section 4.1: [t = floor(seconds_since_epoch * 1000)], over the
    rationals. *)

Definition seconds_since_epoch (r : timespec) : Q :=
  (inject_Z (tv_sec r) + Qmake (tv_nsec r) 1000000000)%Q.

Definition floor_millis (r : timespec) : Z :=
  Qfloor (seconds_since_epoch r * inject_Z 1000)%Q.

(** Lexicographic order on clock readings. *)
Definition reading_le (r1 r2 : timespec) : Prop :=
  tv_sec r1 < tv_sec r2 \/ (tv_sec r1 = tv_sec r2 /\ tv_nsec r1 <= tv_nsec r2).

(** Nanoseconds from reading [r1] to reading [r2]. *)
Definition elapsed_ns (r1 r2 : timespec) : Z :=
  (tv_sec r2 - tv_sec r1) * 1000000000 + (tv_nsec r2 - tv_nsec r1).

(** * Properties *)

(** ** Arithmetic of [long] *)

Module CLongFacts.
Import CLong.

Lemma representable_iff (z : Z) :
  representable z = true <-> LONG_MIN <= z <= LONG_MAX.
Proof.
  unfold representable.
  rewrite Bool.andb_true_iff, !Z.leb_le. tauto.
Qed.

Lemma wrap_range (z : Z) : LONG_MIN <= wrap z <= LONG_MAX.
Proof.
  unfold wrap, LONG_MIN, LONG_MAX, LONG_BIT.
  pose proof (Z.mod_pos_bound (z - - 2 ^ (64 - 1)) (2 ^ 64) eq_refl).
  change (2 ^ (64 - 1)) with 9223372036854775808 in *.
  change (2 ^ 64) with 18446744073709551616 in *.
  lia.
Qed.

Lemma wrap_small (z : Z) : LONG_MIN <= z <= LONG_MAX -> wrap z = z.
Proof.
  unfold wrap, LONG_MIN, LONG_MAX, LONG_BIT.
  change (2 ^ (64 - 1)) with 9223372036854775808.
  change (2 ^ 64) with 18446744073709551616.
  intros Hz. rewrite Z.mod_small; lia.
Qed.

Lemma wrap_fixed_iff (z : Z) : wrap z = z <-> representable z = true.
Proof.
  rewrite representable_iff. split.
  - intros <-. apply wrap_range.
  - apply wrap_small.
Qed.

End CLongFacts.

Module ModularFacts.
Import CLong CLongFacts.

Lemma wrap_add_wrap_l (a b : Z) : wrap (wrap a + b) = wrap (a + b).
Proof.
  unfold wrap.
  replace ((a - LONG_MIN) mod 2 ^ LONG_BIT + LONG_MIN + b - LONG_MIN)
    with ((a - LONG_MIN) mod 2 ^ LONG_BIT + b) by ring.
  rewrite Zplus_mod_idemp_l.
  do 2 f_equal. ring.
Qed.

Lemma wrap_add_wrap_r (a b : Z) : wrap (a + wrap b) = wrap (a + b).
Proof.
  rewrite Z.add_comm, wrap_add_wrap_l. f_equal. ring.
Qed.

(** Line 7 computes the ideal value modulo [2 ^ 64]. *)
Lemma to_ms_wrap (r : timespec) :
  to_ms r = wrap (tv_sec r * 1000 + tv_nsec r ÷ 1000000).
Proof.
  unfold to_ms, add, mul, div.
  now rewrite wrap_add_wrap_l, wrap_add_wrap_r.
Qed.

Lemma to_ms_range (r : timespec) : representable (to_ms r) = true.
Proof.
  rewrite to_ms_wrap. apply representable_iff, wrap_range.
Qed.

Lemma overflow_free_sum (r : timespec) :
  overflow_free r = true ->
  LONG_MIN <= tv_sec r * 1000 + tv_nsec r ÷ 1000000 <= LONG_MAX.
Proof.
  unfold overflow_free. rewrite Bool.andb_true_iff.
  intros [_ Hs]. now apply representable_iff.
Qed.

(** Without overflow the result is the ideal value. *)
Lemma to_ms_exact (r : timespec) :
  overflow_free r = true ->
  to_ms r = tv_sec r * 1000 + tv_nsec r ÷ 1000000.
Proof.
  intros Hr. rewrite to_ms_wrap.
  apply wrap_small, overflow_free_sum, Hr.
Qed.

Lemma quot_millis_bounds (ns : Z) :
  0 <= ns < 1000000000 -> 0 <= ns ÷ 1000000 <= 999.
Proof.
  intros Hns. rewrite Z.quot_div_nonneg by lia.
  split.
  - apply Z.div_pos; lia.
  - apply Z.lt_succ_r, Z.div_lt_upper_bound; lia.
Qed.

(** The seconds for which no nanosecond count can overflow. *)
Lemma overflow_free_bounded (sec ns : Z) :
  -9223372036854775 <= sec <= 9223372036854774 ->
  0 <= ns < 1000000000 ->
  overflow_free (mk_timespec sec ns) = true.
Proof.
  intros Hsec Hns. pose proof (quot_millis_bounds ns Hns) as Hq.
  unfold overflow_free; cbn [tv_sec tv_nsec].
  apply Bool.andb_true_iff; split; apply representable_iff;
    unfold LONG_MIN, LONG_MAX, LONG_BIT;
    change (2 ^ (64 - 1)) with 9223372036854775808; lia.
Qed.

(** Beyond them the product already leaves [long]. *)
Lemma overflow_beyond (sec ns : Z) :
  sec < -9223372036854775 \/ 9223372036854775 < sec ->
  overflow_free (mk_timespec sec ns) = false.
Proof.
intros Hsec. unfold overflow_free; cbn [tv_sec tv_nsec].
apply Bool.andb_false_iff; left.
unfold representable, LONG_MIN, LONG_MAX, LONG_BIT.
change (2 ^ (64 - 1)) with 9223372036854775808.
apply Bool.andb_false_iff. rewrite !Z.leb_gt. lia.
Qed.

(** [overflow_free] is the condition under which the product and the
    result of line 7 are the ideal values. *)
Lemma overflow_free_exact_iff (r : timespec) :
  overflow_free r = true <->
  mul (tv_sec r) 1000 = tv_sec r * 1000 /\
  to_ms r = tv_sec r * 1000 + tv_nsec r ÷ 1000000.
Proof.
  split.
  - intros Hfree. split; [|now apply to_ms_exact].
    unfold overflow_free in Hfree.
    apply Bool.andb_true_iff in Hfree as [Hp _].
    now apply wrap_fixed_iff.
  - intros [Hp Hs]. unfold overflow_free.
    apply Bool.andb_true_iff; split.
    + now apply wrap_fixed_iff.
    + rewrite to_ms_wrap in Hs. now apply wrap_fixed_iff.
Qed.

(** The normalised readings without overflow. *)
Lemma overflow_free_domain (sec ns : Z) :
  0 <= ns < 1000000000 ->
  (overflow_free (mk_timespec sec ns) = true <->
   -9223372036854775 <= sec <= 9223372036854774 \/
   (sec = 9223372036854775 /\ ns < 808000000)).
Proof.
  intros Hns. pose proof (quot_millis_bounds ns Hns) as Hq.
  unfold overflow_free; cbn [tv_sec tv_nsec].
  rewrite Bool.andb_true_iff, !representable_iff.
  unfold LONG_MIN, LONG_MAX, LONG_BIT.
  change (2 ^ (64 - 1)) with 9223372036854775808.
  rewrite Z.quot_div_nonneg in * by lia.
  Z.div_mod_to_equations. lia.
Qed.

End ModularFacts.

(** ** Runs of the function *)

Section RunFacts.
Context {world : Type} {P : Platform world}.

(** One call of the primitive, then line 7 on what it left. *)
Lemma run_current_time_ms (ts0 : timespec) (w : world) :
  run (current_time_ms ts0) w =
  (to_ms (snd (fst (sys_clock_gettime CLOCK_REALTIME ts0 w))),
   snd (sys_clock_gettime CLOCK_REALTIME ts0 w)).
Proof.
  cbn. now destruct (sys_clock_gettime CLOCK_REALTIME ts0 w) as [[rc r] w'].
Qed.

Lemma run_reads (ts0 r : timespec) (w : world) :
  clock_reads w ts0 r -> fst (run (current_time_ms ts0) w) = to_ms r.
Proof.
  intros [w' Hw]. now rewrite run_current_time_ms, Hw.
Qed.

End RunFacts.

(** The specification's floor is the quotient of line 7 for a normalised
    reading. *)
Lemma floor_millis_eq (sec ns : Z) :
  0 <= ns ->
  floor_millis (mk_timespec sec ns) = sec * 1000 + ns ÷ 1000000.
Proof.
  intros Hns. rewrite Z.quot_div_nonneg by lia.
  unfold floor_millis, seconds_since_epoch, Qfloor; cbn.
  replace ((sec * 1000000000 + ns * 1) * 1000)
    with (sec * 1000 * 1000000000 + ns * 1000) by ring.
  rewrite Z.div_add_l by lia.
  change 1000000000 with (1000000 * 1000).
  now rewrite Z.div_mul_cancel_r by lia.
Qed.

(** ** Concrete runs on a fake clock *)

Example run_2023 :
  run (current_time_ms (mk_timespec 0 0))
      (mk_fake (Some (mk_timespec 1700000000 500000000)) 42)
  = (1700000000500, mk_fake (Some (mk_timespec 1700000000 500000000)) 42).
Proof. reflexivity. Qed.

Example run_before_epoch :
  fst (run (current_time_ms (mk_timespec 0 0))
           (mk_fake (Some (mk_timespec (-1) 250000000)) 0)) = -750.
Proof. reflexivity. Qed.

(** A failed read: the result is line 7 on what the stack slot held. *)
Example run_failed_read :
  fst (run (current_time_ms (mk_timespec 7 3999999)) (mk_fake None 0)) = 7003.
Proof. reflexivity. Qed.

Example run_largest :
  fst (run (current_time_ms (mk_timespec 0 0))
           (mk_fake (Some (mk_timespec 9223372036854775 807999999)) 0))
  = CLong.LONG_MAX.
Proof. reflexivity. Qed.

Example run_overflow :
  fst (run (current_time_ms (mk_timespec 0 0))
           (mk_fake (Some (mk_timespec 9223372036854775 808000000)) 0))
  = CLong.LONG_MIN.
Proof. reflexivity. Qed.

(** ** The claims *)

(** C1, as stated, fails: at the reading of [2 ^ 62] seconds and 0
    nanoseconds the product leaves [long], the function returns 0 and not
    [2 ^ 62 * 1000]. *)
Lemma C1_counterexample :
  let r := mk_timespec (2 ^ 62) 0 in
  let ts0 := mk_timespec 0 0 in
  let w := mk_fake (Some r) 0 in
  clock_reads w ts0 r /\
  0 <= tv_nsec r < 1000000000 /\
  fst (run (current_time_ms ts0) w) = 0 /\
  fst (run (current_time_ms ts0) w) <> tv_sec r * 1000 + tv_nsec r ÷ 1000000.
Proof.
  cbv zeta. split; [eexists; reflexivity|].
  split; [cbn; lia|]. split; [reflexivity|].
  vm_compute. discriminate.
Qed.

(** C1 (amended): for every clock reading of [sec] seconds and [ns]
    nanoseconds with [0 <= ns < 1_000_000_000] for which neither
    [sec * 1000] nor [sec * 1000 + ns / 1_000_000] overflows the 64-bit
    [long], the function returns exactly [sec * 1000 + ns / 1_000_000]
    (division truncating toward zero), which is
    [floor(seconds_since_epoch * 1000)]. *)
Theorem C1_millis_exact :
  forall (world : Type) (P : Platform world) (ts0 : timespec) (w : world)
         (sec ns : Z),
    clock_reads w ts0 (mk_timespec sec ns) ->
    0 <= ns < 1000000000 ->
    overflow_free (mk_timespec sec ns) = true ->
    fst (run (current_time_ms ts0) w) = sec * 1000 + ns ÷ 1000000 /\
    fst (run (current_time_ms ts0) w) = floor_millis (mk_timespec sec ns).
Proof.
  intros world P ts0 w sec ns Hread Hns Hfree.
  rewrite (run_reads _ _ _ Hread), floor_millis_eq by lia.
  split; apply (ModularFacts.to_ms_exact _ Hfree).
Qed.

Lemma C1_witness :
  let r := mk_timespec 1717171717 123456789 in
  let ts0 := mk_timespec 5 5 in
  let w := mk_fake (Some r) 0 in
  fst (run (current_time_ms ts0) w) = 1717171717 * 1000 + 123456789 ÷ 1000000 /\
  fst (run (current_time_ms ts0) w) = floor_millis r.
Proof.
  cbv zeta.
  apply (C1_millis_exact fake_world fake_clock (mk_timespec 5 5)
           (mk_fake (Some (mk_timespec 1717171717 123456789)) 0)
           1717171717 123456789).
  - eexists; reflexivity.
  - lia.
  - reflexivity.
Defined.

(** C2: no error reaches the caller.  The function is one call of the
    clock primitive whose continuation does not look at the returned
    [int] and always returns an integer; on every platform, whatever the
    primitive returns, the result is line 7 on what the primitive left in
    the buffer. *)
Theorem C2_failure_not_surfaced :
  forall (world : Type) (P : Platform world) (ts0 : timespec) (w : world),
    (exists k : Z -> timespec -> prog Z,
        current_time_ms ts0 = Clock_gettime CLOCK_REALTIME ts0 k /\
        forall (rc : Z) (left : timespec), k rc left = Ret (to_ms left)) /\
    (forall (rc : Z) (left : timespec) (w' : world),
        sys_clock_gettime CLOCK_REALTIME ts0 w = (rc, left, w') ->
        run (current_time_ms ts0) w = (to_ms left, w')).
Proof.
  intros world P ts0 w. split.
  - eexists. split; [reflexivity|]. intros rc left. reflexivity.
  - intros rc left w' Hcall. now rewrite run_current_time_ms, Hcall.
Qed.

Lemma C2_witness :
  run (current_time_ms (mk_timespec 7 3999999)) (mk_fake None 9)
  = (7003, mk_fake None 9).
Proof.
  apply (proj2 (C2_failure_not_surfaced fake_world fake_clock
                  (mk_timespec 7 3999999) (mk_fake None 9))
           (-1) (mk_timespec 7 3999999) (mk_fake None 9)).
  reflexivity.
Defined.

(** C3, as stated, fails: at the reading of [2 ^ 62] seconds and 0
    nanoseconds the ideal value of line 7 is no signed 64-bit integer: the
    computation overflows. *)
Lemma C3_counterexample :
  let r := mk_timespec (2 ^ 62) 0 in
  let ts0 := mk_timespec 0 0 in
  let w := mk_fake (Some r) 0 in
  clock_reads w ts0 r /\
  CLong.representable (tv_sec r) = true /\
  CLong.representable (tv_nsec r) = true /\
  CLong.representable (tv_sec r * 1000 + tv_nsec r ÷ 1000000) = false /\
  overflow_free r = false.
Proof.
  cbv zeta. split; [eexists; reflexivity|].
  repeat split; reflexivity.
Qed.

(** C3 (amended): the returned value is always a signed 64-bit integer
    ([long] on LP64), whatever the clock read leaves in the buffer.  For a
    clock reading with [0 <= ns < 1_000_000_000] the computation
    [sec * 1000 + ns / 1_000_000] is carried out in that type without
    overflow (the product [sec * 1000] is exact and the function returns
    exactly [sec * 1000 + ns / 1_000_000]) if and only if
    [-9223372036854775 <= sec <= 9223372036854774], or
    [sec = 9223372036854775] and [ns < 808_000_000]. *)
Theorem C3_no_overflow_in_range :
  forall (world : Type) (P : Platform world) (ts0 : timespec) (w : world),
    CLong.representable (fst (run (current_time_ms ts0) w)) = true /\
    (forall sec ns : Z,
        clock_reads w ts0 (mk_timespec sec ns) ->
        0 <= ns < 1000000000 ->
        (-9223372036854775 <= sec <= 9223372036854774 \/
         (sec = 9223372036854775 /\ ns < 808000000) <->
         CLong.mul sec 1000 = sec * 1000 /\
         fst (run (current_time_ms ts0) w) = sec * 1000 + ns ÷ 1000000)).
Proof.
  intros world P ts0 w. split.
  - rewrite run_current_time_ms. apply ModularFacts.to_ms_range.
  - intros sec ns Hread Hns.
    rewrite (run_reads _ _ _ Hread).
    rewrite <- (ModularFacts.overflow_free_domain sec ns Hns).
    apply (ModularFacts.overflow_free_exact_iff (mk_timespec sec ns)).
Qed.

Lemma C3_witness :
  let r := mk_timespec 9223372036854775 807999999 in
  let ts0 := mk_timespec 0 0 in
  let w := mk_fake (Some r) 0 in
  CLong.mul 9223372036854775 1000 = 9223372036854775 * 1000 /\
  fst (run (current_time_ms ts0) w)
  = 9223372036854775 * 1000 + 807999999 ÷ 1000000.
Proof.
  cbv zeta.
  apply (proj1 (proj2 (C3_no_overflow_in_range fake_world fake_clock
                         (mk_timespec 0 0)
                         (mk_fake (Some (mk_timespec 9223372036854775
                                                     807999999)) 0))
                  9223372036854775 807999999
                  (ex_intro _ _ eq_refl) ltac:(lia))).
  right. lia.
Defined.

(** C4: if the host clock reads exactly 1,700,000,000 seconds and
    500,000,000 nanoseconds, the function returns exactly
    [1700000000500]. *)
Theorem C4_scenario_2023 :
  forall (world : Type) (P : Platform world) (ts0 : timespec) (w : world),
    clock_reads w ts0 (mk_timespec 1700000000 500000000) ->
    fst (run (current_time_ms ts0) w) = 1700000000500.
Proof.
  intros world P ts0 w Hread. now rewrite (run_reads _ _ _ Hread).
Qed.

Lemma C4_witness :
  clock_reads (mk_fake (Some (mk_timespec 1700000000 500000000)) 1)
              (mk_timespec (-3) 17) (mk_timespec 1700000000 500000000) /\
  fst (run (current_time_ms (mk_timespec (-3) 17))
           (mk_fake (Some (mk_timespec 1700000000 500000000)) 1))
  = 1700000000500.
Proof.
  assert (Hread : clock_reads
            (mk_fake (Some (mk_timespec 1700000000 500000000)) 1)
            (mk_timespec (-3) 17) (mk_timespec 1700000000 500000000))
    by (eexists; reflexivity).
  split; [exact Hread|].
  exact (C4_scenario_2023 fake_world fake_clock _ _ Hread).
Defined.

(** C5, as stated, fails in its second half: with [2 ^ 62] seconds and
    999,999,999 nanoseconds the function returns 999, not
    [2 ^ 62 * 1000 + 999]. *)
Lemma C5_counterexample :
  let r := mk_timespec (2 ^ 62) 999999999 in
  let ts0 := mk_timespec 0 0 in
  let w := mk_fake (Some r) 0 in
  clock_reads w ts0 r /\
  fst (run (current_time_ms ts0) w) = 999 /\
  fst (run (current_time_ms ts0) w) <> tv_sec r * 1000 + 999.
Proof.
  cbv zeta. split; [eexists; reflexivity|].
  split; [reflexivity|]. vm_compute. discriminate.
Qed.

(** C5 (amended): if the nanoseconds component of the reading is
    999,999,999, the nanoseconds term [ns / 1_000_000] is 999, not 1000;
    the function returns [sec * 1000 + 999] whenever the computation does
    not overflow the 64-bit [long]. *)
Theorem C5_truncates_to_999 :
  forall (world : Type) (P : Platform world) (ts0 : timespec) (w : world)
         (sec : Z),
    clock_reads w ts0 (mk_timespec sec 999999999) ->
    overflow_free (mk_timespec sec 999999999) = true ->
    CLong.div 999999999 1000000 = 999 /\
    CLong.div 999999999 1000000 <> 1000 /\
    fst (run (current_time_ms ts0) w) = sec * 1000 + 999.
Proof.
  intros world P ts0 w sec Hread Hfree.
  split; [reflexivity|]. split; [discriminate|].
  rewrite (run_reads _ _ _ Hread).
  exact (ModularFacts.to_ms_exact _ Hfree).
Qed.

Lemma C5_witness :
  let ts0 := mk_timespec 0 0 in
  let w := mk_fake (Some (mk_timespec 1700000000 999999999)) 0 in
  CLong.div 999999999 1000000 = 999 /\
  CLong.div 999999999 1000000 <> 1000 /\
  fst (run (current_time_ms ts0) w) = 1700000000 * 1000 + 999.
Proof.
  cbv zeta.
  apply (C5_truncates_to_999 fake_world fake_clock (mk_timespec 0 0)
           (mk_fake (Some (mk_timespec 1700000000 999999999)) 0) 1700000000).
  - eexists; reflexivity.
  - reflexivity.
Defined.

(** C6, as stated, fails: with [2 ^ 62 >= 0] seconds and 0 nanoseconds the
    function returns 0, and [0 / 1000] is not [2 ^ 62]. *)
Lemma C6_counterexample :
  let r := mk_timespec (2 ^ 62) 0 in
  let ts0 := mk_timespec 0 0 in
  let w := mk_fake (Some r) 0 in
  clock_reads w ts0 r /\
  0 <= tv_sec r /\
  0 <= tv_nsec r < 1000000000 /\
  fst (run (current_time_ms ts0) w) ÷ 1000 <> tv_sec r.
Proof.
  cbv zeta. split; [eexists; reflexivity|].
  split; [cbn; lia|]. split; [cbn; lia|].
  vm_compute. discriminate.
Qed.

(** C6 (amended): for every clock reading with [sec >= 0] and
    [0 <= ns < 1_000_000_000] whose millisecond value does not overflow the
    64-bit [long], the returned value divided by 1000 is exactly [sec]. *)
Theorem C6_seconds_recovered :
  forall (world : Type) (P : Platform world) (ts0 : timespec) (w : world)
         (sec ns : Z),
    clock_reads w ts0 (mk_timespec sec ns) ->
    0 <= sec ->
    0 <= ns < 1000000000 ->
    overflow_free (mk_timespec sec ns) = true ->
    fst (run (current_time_ms ts0) w) ÷ 1000 = sec.
Proof.
  intros world P ts0 w sec ns Hread Hsec Hns Hfree.
  rewrite (run_reads _ _ _ Hread), (ModularFacts.to_ms_exact _ Hfree).
  cbn [tv_sec tv_nsec].
  pose proof (ModularFacts.quot_millis_bounds ns Hns) as Hq.
  rewrite Z.quot_div_nonneg by lia.
  symmetry. apply Z.div_unique with (r := ns ÷ 1000000); lia.
Qed.

Lemma C6_witness :
  fst (run (current_time_ms (mk_timespec 0 0))
           (mk_fake (Some (mk_timespec 1700000000 999999999)) 0)) ÷ 1000
  = 1700000000.
Proof.
  apply (C6_seconds_recovered fake_world fake_clock (mk_timespec 0 0)
           (mk_fake (Some (mk_timespec 1700000000 999999999)) 0)
           1700000000 999999999).
  - eexists; reflexivity.
  - lia.
  - lia.
  - reflexivity.
Defined.

(** C7, as stated, fails: from 9223372036854775 to 9223372036854776
    seconds the clock goes forward and the returned value drops from
    9223372036854775000 to a negative number. *)
Lemma C7_counterexample :
  let r1 := mk_timespec 9223372036854775 0 in
  let r2 := mk_timespec 9223372036854776 0 in
  let ts0 := mk_timespec 0 0 in
  clock_reads (mk_fake (Some r1) 0) ts0 r1 /\
  clock_reads (mk_fake (Some r2) 0) ts0 r2 /\
  0 <= tv_nsec r1 < 1000000000 /\
  0 <= tv_nsec r2 < 1000000000 /\
  reading_le r1 r2 /\
  fst (run (current_time_ms ts0) (mk_fake (Some r1) 0)) = 9223372036854775000 /\
  fst (run (current_time_ms ts0) (mk_fake (Some r2) 0)) = -9223372036854775616 /\
  ~ fst (run (current_time_ms ts0) (mk_fake (Some r2) 0))
    >= fst (run (current_time_ms ts0) (mk_fake (Some r1) 0)).
Proof.
  cbv zeta.
  split; [eexists; reflexivity|]. split; [eexists; reflexivity|].
  split; [cbn; lia|]. split; [cbn; lia|].
  split; [left; cbn; lia|].
  split; [reflexivity|]. split; [reflexivity|].
  vm_compute. intros H. now apply H.
Qed.

(** C7 (amended): the conversion is monotone on the readings it converts
    without overflow: for two clock readings with nanoseconds in
    [0, 1_000_000_000), neither of which overflows the 64-bit [long], if the
    second is not before the first in lexicographic order then the second
    returned timestamp is not below the first. *)
Theorem C7_monotone :
  forall (world : Type) (P : Platform world) (ts1 ts2 : timespec)
         (w1 w2 : world) (r1 r2 : timespec),
    clock_reads w1 ts1 r1 ->
    clock_reads w2 ts2 r2 ->
    0 <= tv_nsec r1 < 1000000000 ->
    0 <= tv_nsec r2 < 1000000000 ->
    overflow_free r1 = true ->
    overflow_free r2 = true ->
    reading_le r1 r2 ->
    fst (run (current_time_ms ts2) w2) >= fst (run (current_time_ms ts1) w1).
Proof.
  intros world P ts1 ts2 w1 w2 r1 r2 Hr1 Hr2 Hn1 Hn2 Hf1 Hf2 Hle.
  rewrite (run_reads _ _ _ Hr1), (run_reads _ _ _ Hr2).
  rewrite (ModularFacts.to_ms_exact _ Hf1), (ModularFacts.to_ms_exact _ Hf2).
  pose proof (ModularFacts.quot_millis_bounds _ Hn1) as Hq1.
  pose proof (ModularFacts.quot_millis_bounds _ Hn2) as Hq2.
  destruct Hle as [Hlt | [Heq Hns]].
  - lia.
  - rewrite Heq.
    pose proof (Z.quot_le_mono (tv_nsec r1) (tv_nsec r2) 1000000) as Hmono.
    lia.
Qed.

Lemma C7_witness :
  fst (run (current_time_ms (mk_timespec 0 0))
           (mk_fake (Some (mk_timespec 1700000001 0)) 0))
  >= fst (run (current_time_ms (mk_timespec 9 9))
              (mk_fake (Some (mk_timespec 1700000000 999999999)) 0)).
Proof.
  apply (C7_monotone fake_world fake_clock (mk_timespec 9 9) (mk_timespec 0 0)
           (mk_fake (Some (mk_timespec 1700000000 999999999)) 0)
           (mk_fake (Some (mk_timespec 1700000001 0)) 0)
           (mk_timespec 1700000000 999999999) (mk_timespec 1700000001 0)).
  - eexists; reflexivity.
  - eexists; reflexivity.
  - cbn; lia.
  - cbn; lia.
  - reflexivity.
  - reflexivity.
  - left; cbn; lia.
Defined.

(** C8, as stated, fails: on a POSIX process whose clock read fails with
    [EPERM], a call leaves [errno] at [EPERM] where it was 0, so the state
    of the process is not what it was. *)
Lemma C8_counterexample :
  let ts0 := mk_timespec 0 0 in
  let w := mk_posix (inr EPERM) 0 (fun _ => 0) in
  posix_errno w = 0 /\
  posix_errno (snd (run (current_time_ms ts0) w)) = EPERM /\
  snd (run (current_time_ms ts0) w) <> w.
Proof.
  cbv zeta. split; [reflexivity|]. split; [reflexivity|].
  intros Heq. apply (f_equal posix_errno) in Heq.
  vm_compute in Heq. discriminate.
Qed.

(** C8 (amended): the function has no side effect of its own: the state
    after a call is the state its one call of the clock primitive leaves.
    On a POSIX process a call changes no object in memory and not the
    clock; a call whose clock read succeeds changes nothing at all, and a
    call whose clock read fails changes [errno], which the primitive sets
    to the error number. *)
Theorem C8_no_side_effects :
  (forall (world : Type) (P : Platform world) (ts0 : timespec) (w : world),
      snd (run (current_time_ms ts0) w)
      = snd (sys_clock_gettime CLOCK_REALTIME ts0 w)) /\
  (forall (ts0 : timespec) (w : posix_world),
      posix_mem (snd (run (current_time_ms ts0) w)) = posix_mem w /\
      posix_clock (snd (run (current_time_ms ts0) w)) = posix_clock w /\
      (forall r : timespec,
          posix_clock w = inl r -> snd (run (current_time_ms ts0) w) = w) /\
      (forall e : Z,
          posix_clock w = inr e ->
          posix_errno (snd (run (current_time_ms ts0) w)) = e)).
Proof.
  split.
  - intros world P ts0 w. now rewrite run_current_time_ms.
  - intros ts0 w. rewrite run_current_time_ms. cbn.
    destruct (posix_clock w) as [r | e] eqn:Hclock; cbn.
    + repeat split; try assumption. intros e He. discriminate He.
    + repeat split; try assumption.
      * intros r Hr. discriminate Hr.
      * intros e' He'. now injection He'.
Qed.

Lemma C8_witness :
  let ts0 := mk_timespec 3 4 in
  let w := mk_posix (inl (mk_timespec 1700000000 500000000)) 11 (fun a => a) in
  snd (run (current_time_ms ts0) w) = w.
Proof.
  cbv zeta.
  apply (proj1 (proj2 (proj2 (proj2 C8_no_side_effects (mk_timespec 3 4)
           (mk_posix (inl (mk_timespec 1700000000 500000000)) 11
                     (fun a => a)))))
           (mk_timespec 1700000000 500000000)).
  reflexivity.
Defined.

(** The function calls the clock primitive once. *)
Lemma current_time_ms_calls
  (world : Type) (P : Platform world) (ts0 : timespec) (w : world) :
  calls (current_time_ms ts0) w = 1%nat.
Proof.
  cbn. now destruct (sys_clock_gettime CLOCK_REALTIME ts0 w) as [[rc r] w'].
Qed.

(** C10: the result depends on nothing but the clock reading: two calls
    whose clock read leaves the same seconds and nanoseconds return the
    same timestamp, whatever the worlds, the prior contents of the buffer
    and the values returned by the primitive. *)
Theorem C10_deterministic :
  forall (world : Type) (P : Platform world) (ts1 ts2 : timespec)
         (w1 w2 w1' w2' : world) (rc1 rc2 : Z) (r : timespec),
    sys_clock_gettime CLOCK_REALTIME ts1 w1 = (rc1, r, w1') ->
    sys_clock_gettime CLOCK_REALTIME ts2 w2 = (rc2, r, w2') ->
    fst (run (current_time_ms ts1) w1) = fst (run (current_time_ms ts2) w2).
Proof.
  intros world P ts1 ts2 w1 w2 w1' w2' rc1 rc2 r H1 H2.
  now rewrite !run_current_time_ms, H1, H2.
Qed.

Lemma C10_witness :
  fst (run (current_time_ms (mk_timespec 1 2))
           (mk_fake (Some (mk_timespec 1700000000 500000000)) 3))
  = fst (run (current_time_ms (mk_timespec 1700000000 500000000))
             (mk_fake None 6)).
Proof.
  apply (C10_deterministic fake_world fake_clock
           (mk_timespec 1 2) (mk_timespec 1700000000 500000000)
           (mk_fake (Some (mk_timespec 1700000000 500000000)) 3)
           (mk_fake None 6)
           (mk_fake (Some (mk_timespec 1700000000 500000000)) 3)
           (mk_fake None 6)
           0 (-1) (mk_timespec 1700000000 500000000)); reflexivity.
Defined.

(** ** Further properties of line 7 *)

Module MillisFacts.
Import CLong CLongFacts ModularFacts.

(** The floor of the specification, for any nanosecond count. *)
Lemma floor_millis_div (sec ns : Z) :
  floor_millis (mk_timespec sec ns) = sec * 1000 + ns / 1000000.
Proof.
  unfold floor_millis, seconds_since_epoch, Qfloor; cbn.
  replace ((sec * 1000000000 + ns * 1) * 1000)
    with (sec * 1000 * 1000000000 + ns * 1000) by ring.
  rewrite Z.div_add_l by lia.
  change 1000000000 with (1000000 * 1000).
  now rewrite Z.div_mul_cancel_r by lia.
Qed.

(** Truncation against floor on the nanoseconds term. *)
Lemma quot_vs_div (ns : Z) :
  ns ÷ 1000000
  = ns / 1000000
    + (if (ns <? 0) && negb (ns mod 1000000 =? 0) then 1 else 0).
Proof.
  destruct (Z.ltb_spec ns 0) as [Hneg | Hpos]; cbn [andb].
  - destruct (Z.eqb_spec (ns mod 1000000) 0) as [Hz | Hnz]; cbn [negb];
      Z.quot_rem_to_equations; Z.div_mod_to_equations; lia.
  - rewrite Z.quot_div_nonneg by lia. lia.
Qed.

(** Two timestamps differ by the elapsed time up to one millisecond. *)
Lemma to_ms_elapsed (r1 r2 : timespec) :
  0 <= tv_nsec r1 < 1000000000 ->
  0 <= tv_nsec r2 < 1000000000 ->
  overflow_free r1 = true ->
  overflow_free r2 = true ->
  -1000000 < 1000000 * (to_ms r2 - to_ms r1) - elapsed_ns r1 r2 < 1000000.
Proof.
  intros Hn1 Hn2 Hf1 Hf2.
  rewrite (to_ms_exact _ Hf1), (to_ms_exact _ Hf2). unfold elapsed_ns.
  rewrite (Z.quot_div_nonneg (tv_nsec r1)), (Z.quot_div_nonneg (tv_nsec r2))
    by lia.
  Z.div_mod_to_equations. lia.
Qed.

End MillisFacts.

(** X1: the normalised readings that line 7 converts without overflow are
    exactly those from -9223372036854775 seconds up to 9223372036854775
    seconds and 807,999,999 nanoseconds. *)
Theorem X1_overflow_domain :
  forall sec ns : Z,
    0 <= ns < 1000000000 ->
    (overflow_free (mk_timespec sec ns) = true <->
     -9223372036854775 <= sec <= 9223372036854774 \/
     (sec = 9223372036854775 /\ ns < 808000000)).
Proof.
  intros sec ns Hns.
  unfold overflow_free; cbn [tv_sec tv_nsec].
  rewrite Bool.andb_true_iff, !CLongFacts.representable_iff.
  unfold CLong.LONG_MIN, CLong.LONG_MAX, CLong.LONG_BIT.
  change (2 ^ (64 - 1)) with 9223372036854775808.
  rewrite Z.quot_div_nonneg by lia.
  Z.div_mod_to_equations. lia.
Qed.

Lemma X1_witness :
  overflow_free (mk_timespec 9223372036854775 807999999) = true <->
  -9223372036854775 <= 9223372036854775 <= 9223372036854774 \/
  (9223372036854775 = 9223372036854775 /\ 807999999 < 808000000).
Proof.
  apply (X1_overflow_domain 9223372036854775 807999999). lia.
Defined.

(** X2: without overflow, floor division and remainder by 1000 take the
    returned value apart again, before the epoch as after it: the quotient
    is the seconds and the remainder the milliseconds of the reading. *)
Theorem X2_floor_decode :
  forall (world : Type) (P : Platform world) (ts0 : timespec) (w : world)
         (sec ns : Z),
    clock_reads w ts0 (mk_timespec sec ns) ->
    0 <= ns < 1000000000 ->
    overflow_free (mk_timespec sec ns) = true ->
    fst (run (current_time_ms ts0) w) / 1000 = sec /\
    fst (run (current_time_ms ts0) w) mod 1000 = ns ÷ 1000000.
Proof.
  intros world P ts0 w sec ns Hread Hns Hfree.
  rewrite (run_reads _ _ _ Hread), (ModularFacts.to_ms_exact _ Hfree).
  cbn [tv_sec tv_nsec].
  pose proof (ModularFacts.quot_millis_bounds ns Hns) as Hq.
  split; symmetry.
  - apply Z.div_unique with (r := ns ÷ 1000000); lia.
  - apply Z.mod_unique with (q := sec); lia.
Qed.

Lemma X2_witness :
  fst (run (current_time_ms (mk_timespec 0 0))
           (mk_fake (Some (mk_timespec (-2) 250000000)) 0)) / 1000 = -2 /\
  fst (run (current_time_ms (mk_timespec 0 0))
           (mk_fake (Some (mk_timespec (-2) 250000000)) 0)) mod 1000
  = 250000000 ÷ 1000000.
Proof.
  apply (X2_floor_decode fake_world fake_clock (mk_timespec 0 0)
           (mk_fake (Some (mk_timespec (-2) 250000000)) 0) (-2) 250000000).
  - eexists; reflexivity.
  - lia.
  - reflexivity.
Defined.

(** X3: without overflow, the truncating division of C by 1000 gives the
    seconds of the reading, except before the epoch with at least one
    whole millisecond, where it gives one second more. *)
Theorem X3_truncating_decode :
  forall (world : Type) (P : Platform world) (ts0 : timespec) (w : world)
         (sec ns : Z),
    clock_reads w ts0 (mk_timespec sec ns) ->
    0 <= ns < 1000000000 ->
    overflow_free (mk_timespec sec ns) = true ->
    fst (run (current_time_ms ts0) w) ÷ 1000
    = sec + (if (sec <? 0) && (1000000 <=? ns) then 1 else 0).
Proof.
  intros world P ts0 w sec ns Hread Hns Hfree.
  rewrite (run_reads _ _ _ Hread), (ModularFacts.to_ms_exact _ Hfree).
  cbn [tv_sec tv_nsec].
  rewrite (Z.quot_div_nonneg ns) by lia.
  destruct (Z.ltb_spec sec 0) as [Hneg | Hpos]; cbn [andb].
  - destruct (Z.leb_spec 1000000 ns) as [Hms | Hms];
      Z.quot_rem_to_equations; Z.div_mod_to_equations; lia.
  - Z.quot_rem_to_equations; Z.div_mod_to_equations; lia.
Qed.

Lemma X3_witness :
  fst (run (current_time_ms (mk_timespec 0 0))
           (mk_fake (Some (mk_timespec (-2) 250000000)) 0)) ÷ 1000
  = -2 + (if (-2 <? 0) && (1000000 <=? 250000000) then 1 else 0).
Proof.
  apply (X3_truncating_decode fake_world fake_clock (mk_timespec 0 0)
           (mk_fake (Some (mk_timespec (-2) 250000000)) 0) (-2) 250000000).
  - eexists; reflexivity.
  - lia.
  - reflexivity.
Defined.

(** X4: without overflow, the difference of two returned timestamps is
    the time elapsed between the two normalised readings up to less than
    one millisecond, in either direction. *)
Theorem X4_elapsed_accuracy :
  forall (world : Type) (P : Platform world) (ts1 ts2 : timespec)
         (w1 w2 : world) (r1 r2 : timespec),
    clock_reads w1 ts1 r1 ->
    clock_reads w2 ts2 r2 ->
    0 <= tv_nsec r1 < 1000000000 ->
    0 <= tv_nsec r2 < 1000000000 ->
    overflow_free r1 = true ->
    overflow_free r2 = true ->
    Z.abs (1000000 * (fst (run (current_time_ms ts2) w2)
                      - fst (run (current_time_ms ts1) w1))
           - elapsed_ns r1 r2) < 1000000.
Proof.
  intros world P ts1 ts2 w1 w2 r1 r2 Hr1 Hr2 Hn1 Hn2 Hf1 Hf2.
  rewrite (run_reads _ _ _ Hr1), (run_reads _ _ _ Hr2).
  pose proof (MillisFacts.to_ms_elapsed r1 r2 Hn1 Hn2 Hf1 Hf2). lia.
Qed.

Lemma X4_witness :
  Z.abs (1000000 * (fst (run (current_time_ms (mk_timespec 0 0))
                             (mk_fake (Some (mk_timespec 1700000001 100)) 0))
                    - fst (run (current_time_ms (mk_timespec 0 0))
                               (mk_fake (Some (mk_timespec 1700000000 999999999)) 0)))
         - elapsed_ns (mk_timespec 1700000000 999999999)
                      (mk_timespec 1700000001 100)) < 1000000.
Proof.
  apply (X4_elapsed_accuracy fake_world fake_clock
           (mk_timespec 0 0) (mk_timespec 0 0)
           (mk_fake (Some (mk_timespec 1700000000 999999999)) 0)
           (mk_fake (Some (mk_timespec 1700000001 100)) 0)
           (mk_timespec 1700000000 999999999) (mk_timespec 1700000001 100)).
  - eexists; reflexivity.
  - eexists; reflexivity.
  - cbn; lia.
  - cbn; lia.
  - reflexivity.
  - reflexivity.
Defined.

(** X5: without overflow, a reading at least one millisecond after
    another gives a strictly larger timestamp, and a strictly larger
    timestamp only comes from a strictly later reading. *)
Theorem X5_strict_order :
  forall (world : Type) (P : Platform world) (ts1 ts2 : timespec)
         (w1 w2 : world) (r1 r2 : timespec),
    clock_reads w1 ts1 r1 ->
    clock_reads w2 ts2 r2 ->
    0 <= tv_nsec r1 < 1000000000 ->
    0 <= tv_nsec r2 < 1000000000 ->
    overflow_free r1 = true ->
    overflow_free r2 = true ->
    (1000000 <= elapsed_ns r1 r2 ->
     fst (run (current_time_ms ts1) w1) < fst (run (current_time_ms ts2) w2)) /\
    (fst (run (current_time_ms ts1) w1) < fst (run (current_time_ms ts2) w2) ->
     0 < elapsed_ns r1 r2).
Proof.
  intros world P ts1 ts2 w1 w2 r1 r2 Hr1 Hr2 Hn1 Hn2 Hf1 Hf2.
  rewrite (run_reads _ _ _ Hr1), (run_reads _ _ _ Hr2).
  pose proof (MillisFacts.to_ms_elapsed r1 r2 Hn1 Hn2 Hf1 Hf2).
  split; lia.
Qed.

Lemma X5_witness :
  fst (run (current_time_ms (mk_timespec 0 0))
           (mk_fake (Some (mk_timespec 1700000000 999999999)) 0))
  < fst (run (current_time_ms (mk_timespec 0 0))
             (mk_fake (Some (mk_timespec 1700000001 999999)) 0)) /\
  0 < elapsed_ns (mk_timespec 1700000000 999999999)
                 (mk_timespec 1700000001 999999).
Proof.
  pose proof (X5_strict_order fake_world fake_clock
                (mk_timespec 0 0) (mk_timespec 0 0)
                (mk_fake (Some (mk_timespec 1700000000 999999999)) 0)
                (mk_fake (Some (mk_timespec 1700000001 999999)) 0)
                (mk_timespec 1700000000 999999999)
                (mk_timespec 1700000001 999999)
                (ex_intro _ _ eq_refl) (ex_intro _ _ eq_refl)) as H.
  cbn [tv_nsec] in H.
  specialize (H ltac:(lia) ltac:(lia) eq_refl eq_refl).
  destruct H as [Hfwd Hback].
  assert (Hlt := Hfwd ltac:(vm_compute; discriminate)).
  split; [exact Hlt | exact (Hback Hlt)].
Defined.

(** X6: whatever the primitive leaves in the buffer, without overflow the
    returned value is the floor of the specification when the nanoseconds
    are not negative or are a whole number of milliseconds, and one more
    than the floor otherwise: the division of line 7 truncates toward
    zero. *)
Theorem X6_truncation_against_floor :
  forall (world : Type) (P : Platform world) (ts0 : timespec) (w w' : world)
         (rc sec ns : Z),
    sys_clock_gettime CLOCK_REALTIME ts0 w = (rc, mk_timespec sec ns, w') ->
    overflow_free (mk_timespec sec ns) = true ->
    fst (run (current_time_ms ts0) w)
    = floor_millis (mk_timespec sec ns)
      + (if (ns <? 0) && negb (ns mod 1000000 =? 0) then 1 else 0).
Proof.
  intros world P ts0 w w' rc sec ns Hcall Hfree.
  rewrite run_current_time_ms, Hcall; cbn [fst snd].
  rewrite (ModularFacts.to_ms_exact _ Hfree), MillisFacts.floor_millis_div.
  cbn [tv_sec tv_nsec]. rewrite (MillisFacts.quot_vs_div ns). ring.
Qed.

Lemma X6_witness :
  fst (run (current_time_ms (mk_timespec 5 (-1))) (mk_fake None 0)) = 5000 /\
  floor_millis (mk_timespec 5 (-1)) = 4999.
Proof.
  split; [|reflexivity].
  apply (X6_truncation_against_floor fake_world fake_clock
           (mk_timespec 5 (-1)) (mk_fake None 0) (mk_fake None 0)
           (-1) 5 (-1)); reflexivity.
Defined.
